(** * The chat widget of [client/src/components/chat/Chat.tsx]

    A shallow embedding of the [Chat] React component: its state (the six
    [useState] cells), its three event handlers and the footer of its
    render, which decides which handler the user can trigger.

    The asynchronous handlers are cut at their single [await fetch(...)]:
    the part before it runs when the event fires, the part after it when
    the network call settles.  Whatever the browser supplies from outside
    (the identifiers drawn by [generateId], the clock read by [new Date()],
    the outcome of [fetch]) is an argument of the handler. *)

From Stdlib Require Import Strings.String Strings.Ascii.
From stdpp Require Import base tactics option list numbers relations.

Local Open Scope N_scope.

(** ** JavaScript strings

    A JavaScript string is a sequence of UTF-16 code units.  String
    literals of the source are ASCII and are written with [lit]. *)

Definition jsstring : Type := list N.

Definition lit (s : string) : jsstring :=
  List.map N_of_ascii (list_ascii_of_string s).

(** ECMAScript [WhiteSpace] and [LineTerminator] code points, the ones
    [String.prototype.trim] removes; all of them are single code units. *)
Definition isWhiteSpace (c : N) : bool :=
  (c =? 0x0009) || (c =? 0x000A) || (c =? 0x000B) || (c =? 0x000C)
  || (c =? 0x000D) || (c =? 0x0020) || (c =? 0x00A0) || (c =? 0x1680)
  || ((0x2000 <=? c) && (c <=? 0x200A))
  || (c =? 0x2028) || (c =? 0x2029) || (c =? 0x202F) || (c =? 0x205F)
  || (c =? 0x3000) || (c =? 0xFEFF).

Fixpoint dropWhile {A} (p : A -> bool) (l : list A) : list A :=
  match l with
  | [] => []
  | x :: l' => if p x then dropWhile p l' else l
  end.

Definition trimStart (s : jsstring) : jsstring := dropWhile isWhiteSpace s.

Definition trimEnd (s : jsstring) : jsstring :=
  rev (dropWhile isWhiteSpace (rev s)).

(** [s.trim()] *)
Definition trim (s : jsstring) : jsstring := trimEnd (trimStart s).

(** Truthiness of a string: only the empty string is falsy. *)
Definition truthy_string (s : jsstring) : bool :=
  match s with [] => false | _ :: _ => true end.

(** Truthiness of an optional JSON field ([undefined] when absent). *)
Definition truthy_flag (b : option bool) : bool :=
  match b with Some true => true | _ => false end.

Definition truthy_id (i : option jsstring) : bool :=
  match i with Some s => truthy_string s | None => false end.

(** ** Messages ([types.ts]) *)

Inductive MessageRole := user | assistant.

(** [Date] values, as milliseconds since the epoch. *)
Definition Date : Type := Z.

Module Message.
Record t := mk {
  id : jsstring;
  role : MessageRole;
  content : jsstring;
  timestamp : Date;
  suggestedQueries : option (list jsstring)
}.
End Message.

(** ** The gateway: [POST {API_URL}/chat] *)

(** The JSON body of the request. *)
Module Request.
Record t := mk {
  message : jsstring;
  conversation_id : option jsstring
}.
End Request.

(** The JSON body of a reply, an object of the expected shape: the
    reply text and three optional fields. *)
Record ChatData := {
  response : jsstring;
  conversation_id : option jsstring;
  confirmed : option bool;
  awaiting_confirmation : option bool
}.

Inductive Body :=
| InvalidJson                       (* not JSON: [response.json()] rejects *)
| Json (data : ChatData).

(** How the promise returned by [fetch] settles. *)
Inductive FetchResult :=
| Rejected                          (* network error: [fetch] rejects *)
| Responded (status : N) (body : Body).

(** [response.ok]: the status is in the range 200-299. *)
Definition ok (status : N) : bool := (200 <=? status) && (status <=? 299).

(** The value of [data] when the [try] block gets as far as line 94
    (line 172 in [handleConfirmationResponse]); [None] when control goes
    to the [catch] block instead. *)
Definition awaitJson (r : FetchResult) : option ChatData :=
  match r with
  | Rejected => None
  | Responded status body =>
      if ok status then
        match body with
        | InvalidJson => None
        | Json data => Some data
        end
      else None
  end.

(** ** Component state: the [useState] cells of [Chat] *)

Record State := {
  messages : list Message.t;
  input : jsstring;
  isLoading : bool;
  conversationId : option jsstring;
  isConfirmed : bool;
  isAwaitingConfirmation : bool
}.

(** What a handler does to the outside world. *)
Inductive Effect :=
| Fetch (body : Request.t)
| ConsoleLog (label : string)
| ConsoleError (label : string).

(** ** Handlers as state transformers that record their effects *)

Definition Handler (A : Type) : Type := State -> A * State * list Effect.

#[export] Instance Handler_ret : MRet Handler := fun A x s => (x, s, []).

#[export] Instance Handler_bind : MBind Handler := fun A B f m s =>
  let '(x, s1, e1) := m s in
  let '(y, s2, e2) := f x s1 in
  (y, s2, e1 ++ e2).

(** The values of the state cells as the handler's closure sees them. *)
Definition closure : Handler State := fun s => (s, s, []).

Definition emit (e : Effect) : Handler unit := fun s => (tt, s, [e]).

Definition setMessages (f : list Message.t -> list Message.t) : Handler unit :=
  fun s => (tt, {| messages := f (messages s); input := input s;
                   isLoading := isLoading s;
                   conversationId := conversationId s;
                   isConfirmed := isConfirmed s;
                   isAwaitingConfirmation := isAwaitingConfirmation s |}, []).

Definition setInput (v : jsstring) : Handler unit :=
  fun s => (tt, {| messages := messages s; input := v;
                   isLoading := isLoading s;
                   conversationId := conversationId s;
                   isConfirmed := isConfirmed s;
                   isAwaitingConfirmation := isAwaitingConfirmation s |}, []).

Definition setIsLoading (v : bool) : Handler unit :=
  fun s => (tt, {| messages := messages s; input := input s;
                   isLoading := v;
                   conversationId := conversationId s;
                   isConfirmed := isConfirmed s;
                   isAwaitingConfirmation := isAwaitingConfirmation s |}, []).

Definition setConversationId (v : option jsstring) : Handler unit :=
  fun s => (tt, {| messages := messages s; input := input s;
                   isLoading := isLoading s;
                   conversationId := v;
                   isConfirmed := isConfirmed s;
                   isAwaitingConfirmation := isAwaitingConfirmation s |}, []).

Definition setIsConfirmed (v : bool) : Handler unit :=
  fun s => (tt, {| messages := messages s; input := input s;
                   isLoading := isLoading s;
                   conversationId := conversationId s;
                   isConfirmed := v;
                   isAwaitingConfirmation := isAwaitingConfirmation s |}, []).

Definition setIsAwaitingConfirmation (v : bool) : Handler unit :=
  fun s => (tt, {| messages := messages s; input := input s;
                   isLoading := isLoading s;
                   conversationId := conversationId s;
                   isConfirmed := isConfirmed s;
                   isAwaitingConfirmation := v |}, []).

(** The state a handler leaves and the effects it had. *)
Definition after {A} (h : Handler A) (s : State) : State := snd (fst (h s)).
Definition effects {A} (h : Handler A) (s : State) : list Effect := snd (h s).

(** ** The handlers of [Chat] *)

Inductive ConfirmationChoice := yes | no.

Definition GREETING : jsstring :=
  lit "Hello! I'm your ASU enrollment data assistant. I can help you query student enrollment information. Just tell me what you'd like to know - for example, 'How many students were enrolled in Fall 2024?' or 'Show me graduate enrollment trends.'".

Definition CONNECTION_ERROR : jsstring :=
  lit "Sorry, I encountered an error connecting to the server. Please make sure the backend is running on http://localhost:8000".

Section Chat.

(** [INITIAL_MESSAGE] is built once, when the module is loaded: its
    identifier and timestamp are those drawn at that moment. *)
Variable loadId : jsstring.
Variable loadTime : Date.

Definition INITIAL_MESSAGE : Message.t :=
  {| Message.id := loadId;
     Message.role := assistant;
     Message.content := GREETING;
     Message.timestamp := loadTime;
     Message.suggestedQueries := None |}.

(** The state of the first render (lines 24-29). *)
Definition initialState : State :=
  {| messages := [INITIAL_MESSAGE];
     input := [];
     isLoading := false;
     conversationId := None;
     isConfirmed := false;
     isAwaitingConfirmation := false |}.

(** Lines 48-61. *)
Definition handleStartNewConversation (newId : jsstring) (now : Date)
  : Handler unit :=
  setMessages (fun _ =>
    [ {| Message.id := newId;
         Message.role := Message.role INITIAL_MESSAGE;
         Message.content := Message.content INITIAL_MESSAGE;
         Message.timestamp := now;
         Message.suggestedQueries :=
           Message.suggestedQueries INITIAL_MESSAGE |} ]);;
  setConversationId None;;
  setIsConfirmed false;;
  setIsAwaitingConfirmation false;;
  setInput [];;
  emit (ConsoleLog "Started new conversation").

End Chat.

(** Lines 63-88: [handleSendMessage] up to its [await fetch].  The result
    tells whether the call is now in flight ([false]: the handler returned
    at line 65). *)
Definition handleSendMessage_begin (newId : jsstring) (now : Date)
  : Handler bool :=
  s ← closure;
  let trimmedInput := trim (input s) in
  if negb (truthy_string trimmedInput) || isLoading s then mret false
  else
    let userMessage :=
      {| Message.id := newId;
         Message.role := user;
         Message.content := trimmedInput;
         Message.timestamp := now;
         Message.suggestedQueries := None |} in
    setMessages (fun prev => prev ++ [userMessage]);;
    setInput [];;
    setIsLoading true;;
    emit (ConsoleLog "Sending message:");;
    emit (Fetch {| Request.message := trimmedInput;
                   Request.conversation_id := conversationId s |});;
    mret true.

(** Lines 90-135: the rest of [handleSendMessage], run when [fetch]
    settles. *)
Definition handleSendMessage_settle (r : FetchResult)
    (newId : jsstring) (now : Date) : Handler unit :=
  match awaitJson r with
  | Some data =>
      emit (ConsoleLog "Response received:");;
      (if truthy_id (conversation_id data)
       then setConversationId (conversation_id data)
       else mret tt);;
      (if truthy_flag (confirmed data) then
         setIsConfirmed true;;
         setIsAwaitingConfirmation false;;
         emit (ConsoleLog "Query confirmed!")
       else if truthy_flag (awaiting_confirmation data) then
         setIsAwaitingConfirmation true;;
         emit (ConsoleLog "Awaiting confirmation")
       else
         setIsAwaitingConfirmation false);;
      let assistantMessage :=
        {| Message.id := newId;
           Message.role := assistant;
           Message.content := response data;
           Message.timestamp := now;
           Message.suggestedQueries := None |} in
      setMessages (fun prev => prev ++ [assistantMessage])
  | None =>
      emit (ConsoleError "Error sending message:");;
      let errorMessage :=
        {| Message.id := newId;
           Message.role := assistant;
           Message.content := CONNECTION_ERROR;
           Message.timestamp := now;
           Message.suggestedQueries := None |} in
      setMessages (fun prev => prev ++ [errorMessage])
  end;;
  setIsLoading false.

(** One whole run of [handleSendMessage]: [id1], [t1] are drawn for the
    user message, [r] is how the gateway call settles, [id2], [t2] are
    drawn for the message appended afterwards. *)
Definition handleSendMessage (id1 : jsstring) (t1 : Date) (r : FetchResult)
    (id2 : jsstring) (t2 : Date) : Handler unit :=
  inflight ← handleSendMessage_begin id1 t1;
  if (inflight : bool) then handleSendMessage_settle r id2 t2 else mret tt.

(** Lines 145-166: [handleConfirmationResponse] up to its [await fetch]. *)
Definition handleConfirmationResponse_begin (response : ConfirmationChoice)
    (newId : jsstring) (now : Date) : Handler bool :=
  s ← closure;
  if isLoading s then mret false
  else
    let userMessage :=
      {| Message.id := newId;
         Message.role := user;
         Message.content :=
           match response with
           | yes => lit "Yes"
           | no => lit "No, let me change something"
           end;
         Message.timestamp := now;
         Message.suggestedQueries := None |} in
    setMessages (fun prev => prev ++ [userMessage]);;
    setIsLoading true;;
    emit (Fetch {| Request.message :=
                     match response with
                     | yes => lit "yes"
                     | no => lit "I want to change something"
                     end;
                   Request.conversation_id := conversationId s |});;
    mret true.

(** Lines 168-194: the rest of [handleConfirmationResponse]. *)
Definition handleConfirmationResponse_settle (r : FetchResult)
    (newId : jsstring) (now : Date) : Handler unit :=
  match awaitJson r with
  | Some data =>
      emit (ConsoleLog "Confirmation response:");;
      (if truthy_flag (confirmed data) then
         setIsConfirmed true;;
         setIsAwaitingConfirmation false
       else
         setIsAwaitingConfirmation
           (truthy_flag (awaiting_confirmation data) || false));;
      let assistantMessage :=
        {| Message.id := newId;
           Message.role := assistant;
           Message.content := response data;
           Message.timestamp := now;
           Message.suggestedQueries := None |} in
      setMessages (fun prev => prev ++ [assistantMessage])
  | None =>
      emit (ConsoleError "Error sending confirmation:")
  end;;
  setIsLoading false.

Definition handleConfirmationResponse (response : ConfirmationChoice)
    (id1 : jsstring) (t1 : Date) (r : FetchResult)
    (id2 : jsstring) (t2 : Date) : Handler unit :=
  inflight ← handleConfirmationResponse_begin response id1 t1;
  if (inflight : bool) then handleConfirmationResponse_settle r id2 t2 else mret tt.

(** Lines 138-143. *)
Definition handleKeyDown (key : jsstring) (shiftKey : bool)
    (newId : jsstring) (now : Date) : Handler bool :=
  if bool_decide (key = lit "Enter") && negb shiftKey
  then handleSendMessage_begin newId now
  else mret false.

(** ** The footer of the render (lines 231-309) *)

(** The three footers, chosen by the conditional of lines 232 and 247. *)
Inductive Mode := Composing | AwaitingConfirmation | Confirmed.

Definition mode (s : State) : Mode :=
  if isConfirmed s then Confirmed
  else if isAwaitingConfirmation s then AwaitingConfirmation
  else Composing.

(** What the user can do to the rendered component. *)
Inductive UserEvent :=
| ClickStartNewConversation                       (* button, line 238 *)
| ClickYes                                        (* button, line 250 *)
| ClickChange                                     (* button, line 262 *)
| ClickStartOver                                  (* button, line 271 *)
| ChangeInput (text : jsstring)                   (* input, line 287 *)
| KeyDownInput (key : jsstring) (shiftKey : bool) (* input, line 288 *)
| ClickSend.                                      (* button, line 294 *)

(** The control of the event is rendered and not [disabled]. *)
Definition available (s : State) (e : UserEvent) : bool :=
  match mode s with
  | Confirmed =>
      match e with
      | ClickStartNewConversation => true
      | _ => false
      end
  | AwaitingConfirmation =>
      match e with
      | ClickYes | ClickChange | ClickStartOver => negb (isLoading s)
      | _ => false
      end
  | Composing =>
      match e with
      | ChangeInput _ | KeyDownInput _ _ => negb (isLoading s)
      | ClickSend => negb (negb (truthy_string (trim (input s))) || isLoading s)
      | _ => false
      end
  end.

(** ** The running component *)

(** A gateway call that has not settled yet, with the handler waiting
    for it. *)
Inductive Pending := PendingSend | PendingConfirmation.

Record Component := {
  view : State;
  inflight : list Pending
}.

(** Runs the first part of an asynchronous handler. *)
Definition launch (h : Handler bool) (k : Pending) (c : Component) : Component :=
  let '(started, s, _) := h (view c) in
  {| view := s;
     inflight := if (started : bool) then inflight c ++ [k] else inflight c |}.

Definition settle (k : Pending) (r : FetchResult) (newId : jsstring)
    (now : Date) : Handler unit :=
  match k with
  | PendingSend => handleSendMessage_settle r newId now
  | PendingConfirmation => handleConfirmationResponse_settle r newId now
  end.

Section Running.

Variable loadId : jsstring.
Variable loadTime : Date.

Definition mounted : Component :=
  {| view := initialState loadId loadTime; inflight := [] |}.

(** The handler bound to each control. *)
Definition dispatch (e : UserEvent) (newId : jsstring) (now : Date)
    (c : Component) : Component :=
  match e with
  | ClickStartNewConversation | ClickStartOver =>
      {| view := after (handleStartNewConversation loadId loadTime newId now)
                       (view c);
         inflight := inflight c |}
  | ClickYes =>
      launch (handleConfirmationResponse_begin yes newId now)
             PendingConfirmation c
  | ClickChange =>
      launch (handleConfirmationResponse_begin no newId now)
             PendingConfirmation c
  | ChangeInput text =>
      {| view := after (setInput text) (view c); inflight := inflight c |}
  | KeyDownInput key shiftKey =>
      launch (handleKeyDown key shiftKey newId now) PendingSend c
  | ClickSend =>
      launch (handleSendMessage_begin newId now) PendingSend c
  end.

(** One turn of the event loop: an event on a control the footer
    offers, or one pending gateway call settling. *)
Inductive step : Component -> Component -> Prop :=
| step_user c e newId now :
    available (view c) e = true ->
    step c (dispatch e newId now c)
| step_settle c l1 k l2 r newId now :
    inflight c = l1 ++ k :: l2 ->
    step c {| view := after (settle k r newId now) (view c);
              inflight := l1 ++ l2 |}.

Definition reachable (c : Component) : Prop := rtc step mounted c.

End Running.

(** ** Vocabulary of the statements *)

(** The messages the handlers build. *)
Definition userMessage (newId text : jsstring) (now : Date) : Message.t :=
  Message.mk newId user text now None.

Definition assistantMessage (newId text : jsstring) (now : Date) : Message.t :=
  Message.mk newId assistant text now None.

(** The text shown and the text sent for each confirmation choice. *)
Definition shown (choice : ConfirmationChoice) : jsstring :=
  match choice with
  | yes => lit "Yes"
  | no => lit "No, let me change something"
  end.

Definition sent (choice : ConfirmationChoice) : jsstring :=
  match choice with
  | yes => lit "yes"
  | no => lit "I want to change something"
  end.

(** The gateway calls among the effects of a handler. *)
Definition requests (es : list Effect) : list Request.t :=
  omap (fun e => match e with Fetch b => Some b | _ => None end) es.

(** The gateway call fails: [fetch] rejects, or the reply has a status
    outside 200-299. *)
Definition transport_failure (r : FetchResult) : Prop :=
  match r with
  | Rejected => True
  | Responded status _ => ok status = false
  end.

(** What holds between two turns of the event loop: the in-flight flag
    is set exactly while a gateway call is pending, at most one call is
    pending, none is pending in the confirmed mode, and the two mode
    flags are not both set. *)
Definition consistent (c : Component) : Prop :=
  match inflight c with
  | [] => isLoading (view c) = false
          /\ isConfirmed (view c) && isAwaitingConfirmation (view c) = false
  | [_] => isLoading (view c) = true /\ isConfirmed (view c) = false
  | _ :: _ :: _ => False
  end.

(** Unfolds the handlers and their combinators down to the state cells. *)
Ltac run :=
  unfold after, effects, settle, launch, handleKeyDown,
    handleSendMessage, handleConfirmationResponse,
    handleSendMessage_begin, handleSendMessage_settle,
    handleConfirmationResponse_begin, handleConfirmationResponse_settle,
    handleStartNewConversation,
    closure, emit, setMessages, setInput, setIsLoading, setConversationId,
    setIsConfirmed, setIsAwaitingConfirmation,
    mbind, mret, Handler_bind, Handler_ret in *;
  cbn [fst snd messages input isLoading conversationId isConfirmed
       isAwaitingConfirmation view inflight negb orb andb app] in *.

(** * Properties *)

(** ** Trimming *)

Lemma dropWhile_nil_iff {A} (p : A -> bool) (l : list A) :
  dropWhile p l = [] <-> forallb p l = true.
Proof.
  induction l as [|x l IH]; simpl; [done|].
  destruct (p x); simpl; [exact IH|]. split; discriminate.
Qed.

Lemma dropWhile_head {A} (p : A -> bool) (l : list A) x l' :
  dropWhile p l = x :: l' -> p x = false.
Proof.
  induction l as [|y l IH]; simpl; [discriminate|].
  destruct (p y) eqn:Hy; [exact IH|]. intros [= <- _]. exact Hy.
Qed.

Lemma forallb_rev {A} (p : A -> bool) (l : list A) :
  forallb p (rev l) = forallb p l.
Proof.
  induction l as [|x l IH]; simpl; [done|].
  rewrite forallb_app, IH. simpl. destruct (p x), (forallb p l); done.
Qed.

(** [trim] leaves nothing exactly when the text is empty or made of
    white space only. *)
Lemma trim_nil_iff (s : jsstring) :
  trim s = [] <-> forallb isWhiteSpace s = true.
Proof.
  unfold trim, trimEnd, trimStart.
  rewrite <- (dropWhile_nil_iff isWhiteSpace s).
  split.
  - intros H. apply (f_equal (@rev N)) in H. rewrite rev_involutive in H.
    simpl in H. apply dropWhile_nil_iff in H. rewrite forallb_rev in H.
    destruct (dropWhile isWhiteSpace s) as [|x l] eqn:E; [done|].
    apply dropWhile_head in E. simpl in H. rewrite E in H. discriminate.
  - intros ->. reflexivity.
Qed.

Lemma truthy_trim_false (s : jsstring) :
  truthy_string (trim s) = false <-> forallb isWhiteSpace s = true.
Proof.
  rewrite <- trim_nil_iff. destruct (trim s); simpl; split; done.
Qed.

(** ** Running handlers *)

Lemma after_bind {A B} (m : Handler A) (f : A -> Handler B) (s : State) :
  after (m ≫= f) s = after (f (fst (fst (m s)))) (after m s).
Proof.
  unfold after, mbind, Handler_bind.
  destruct (m s) as [[x s1] e1]. simpl.
  destruct (f x s1) as [[y s2] e2]. reflexivity.
Qed.

Lemma effects_bind {A B} (m : Handler A) (f : A -> Handler B) (s : State) :
  effects (m ≫= f) s =
  effects m s ++ effects (f (fst (fst (m s)))) (after m s).
Proof.
  unfold after, effects, mbind, Handler_bind.
  destruct (m s) as [[x s1] e1]. simpl.
  destruct (f x s1) as [[y s2] e2]. reflexivity.
Qed.

(** The first turn of a conversation: the question goes to the gateway
    with a null conversation identifier, and the reply leaves three
    messages and the identifier it brought. *)
Example first_turn :
  let question := lit "How many students enrolled in Fall 2024?" in
  let reply := Responded 200 (Json {| response := lit "Let me check.";
                                      conversation_id := Some (lit "abc");
                                      confirmed := None;
                                      awaiting_confirmation := None |}) in
  let h := setInput question;;
           handleSendMessage (lit "b2") 1%Z reply (lit "c3") 2%Z in
  let s := initialState (lit "a1") 0%Z in
  requests (effects h s) = [ {| Request.message := question;
                                Request.conversation_id := None |} ]
  /\ List.map Message.content (messages (after h s))
       = [GREETING; question; lit "Let me check."]
  /\ List.map Message.role (messages (after h s)) = [assistant; user; assistant]
  /\ conversationId (after h s) = Some (lit "abc")
  /\ mode (after h s) = Composing
  /\ isLoading (after h s) = false.
Proof. vm_compute. repeat split. Qed.

Lemma handleSendMessage_returns id1 t1 r id2 t2 s :
  negb (truthy_string (trim (input s))) || isLoading s = true ->
  handleSendMessage id1 t1 r id2 t2 s = (tt, s, []).
Proof. intros H. run. rewrite H. reflexivity. Qed.

Lemma handleSendMessage_replied id1 t1 r id2 t2 s data :
  truthy_string (trim (input s)) = true ->
  isLoading s = false ->
  awaitJson r = Some data ->
  after (handleSendMessage id1 t1 r id2 t2) s =
    {| messages := messages s ++ [userMessage id1 (trim (input s)) t1;
                                  assistantMessage id2 (response data) t2];
       input := [];
       isLoading := false;
       conversationId := if truthy_id (conversation_id data)
                         then conversation_id data else conversationId s;
       isConfirmed := truthy_flag (confirmed data) || isConfirmed s;
       isAwaitingConfirmation :=
         negb (truthy_flag (confirmed data))
         && truthy_flag (awaiting_confirmation data) |}.
Proof.
  intros Ht Hl Hr. run. rewrite Ht, Hl, Hr. simpl. run.
  destruct (truthy_id (conversation_id data)),
    (truthy_flag (confirmed data)),
    (truthy_flag (awaiting_confirmation data)); run;
    rewrite <- app_assoc; reflexivity.
Qed.

Lemma handleSendMessage_failed id1 t1 r id2 t2 s :
  truthy_string (trim (input s)) = true ->
  isLoading s = false ->
  awaitJson r = None ->
  after (handleSendMessage id1 t1 r id2 t2) s =
    {| messages := messages s ++ [userMessage id1 (trim (input s)) t1;
                                  assistantMessage id2 CONNECTION_ERROR t2];
       input := [];
       isLoading := false;
       conversationId := conversationId s;
       isConfirmed := isConfirmed s;
       isAwaitingConfirmation := isAwaitingConfirmation s |}.
Proof.
  intros Ht Hl Hr. run. rewrite Ht, Hl, Hr. simpl. run.
  rewrite <- app_assoc. reflexivity.
Qed.

Lemma handleSendMessage_requests id1 t1 r id2 t2 s :
  truthy_string (trim (input s)) = true ->
  isLoading s = false ->
  requests (effects (handleSendMessage id1 t1 r id2 t2) s) =
    [ {| Request.message := trim (input s);
         Request.conversation_id := conversationId s |} ].
Proof.
  intros Ht Hl. run. rewrite Ht, Hl. simpl. run.
  destruct (awaitJson r) as [data|]; simpl; run; [|reflexivity].
  destruct (truthy_id (conversation_id data)),
    (truthy_flag (confirmed data)),
    (truthy_flag (awaiting_confirmation data)); reflexivity.
Qed.

Lemma handleConfirmationResponse_returns choice id1 t1 r id2 t2 s :
  isLoading s = true ->
  handleConfirmationResponse choice id1 t1 r id2 t2 s = (tt, s, []).
Proof. intros H. run. rewrite H. reflexivity. Qed.

Lemma handleConfirmationResponse_replied choice id1 t1 r id2 t2 s data :
  isLoading s = false ->
  awaitJson r = Some data ->
  after (handleConfirmationResponse choice id1 t1 r id2 t2) s =
    {| messages := messages s ++ [userMessage id1 (shown choice) t1;
                                  assistantMessage id2 (response data) t2];
       input := input s;
       isLoading := false;
       conversationId := conversationId s;
       isConfirmed := truthy_flag (confirmed data) || isConfirmed s;
       isAwaitingConfirmation :=
         negb (truthy_flag (confirmed data))
         && truthy_flag (awaiting_confirmation data) |}.
Proof.
  intros Hl Hr. run. rewrite Hl, Hr. simpl. run.
  destruct (truthy_flag (confirmed data)),
    (truthy_flag (awaiting_confirmation data)); run;
    rewrite <- app_assoc; reflexivity.
Qed.

Lemma handleConfirmationResponse_failed choice id1 t1 r id2 t2 s :
  isLoading s = false ->
  awaitJson r = None ->
  after (handleConfirmationResponse choice id1 t1 r id2 t2) s =
    {| messages := messages s ++ [userMessage id1 (shown choice) t1];
       input := input s;
       isLoading := false;
       conversationId := conversationId s;
       isConfirmed := isConfirmed s;
       isAwaitingConfirmation := isAwaitingConfirmation s |}.
Proof. intros Hl Hr. run. rewrite Hl, Hr. simpl. run. reflexivity. Qed.

Lemma handleConfirmationResponse_requests choice id1 t1 r id2 t2 s :
  isLoading s = false ->
  requests (effects (handleConfirmationResponse choice id1 t1 r id2 t2) s) =
    [ {| Request.message := sent choice;
         Request.conversation_id := conversationId s |} ].
Proof.
  intros Hl. run. rewrite Hl. simpl. run.
  destruct (awaitJson r) as [data|]; simpl; run; [|reflexivity].
  destruct (truthy_flag (confirmed data)); reflexivity.
Qed.

Lemma handleStartNewConversation_after loadId loadTime newId now s :
  after (handleStartNewConversation loadId loadTime newId now) s =
    {| messages := [assistantMessage newId GREETING now];
       input := [];
       isLoading := isLoading s;
       conversationId := None;
       isConfirmed := false;
       isAwaitingConfirmation := false |}.
Proof. reflexivity. Qed.

(** ** Rejected submissions *)

(** C5. [submit] with a text that is empty or made of white space only,
    or while a request is in flight, does nothing: the handler returns the
    state it was given, every cell included, and has no effect at all, so
    no message is appended and the gateway is not called. *)
Theorem C5_submit_rejected_is_noop :
  forall (s : State) id1 t1 r id2 t2,
    forallb isWhiteSpace (input s) = true \/ isLoading s = true ->
    handleSendMessage id1 t1 r id2 t2 s = (tt, s, [])
    /\ after (handleSendMessage id1 t1 r id2 t2) s = s
    /\ requests (effects (handleSendMessage id1 t1 r id2 t2) s) = [].
Proof.
  intros s id1 t1 r id2 t2 H.
  assert (E : handleSendMessage id1 t1 r id2 t2 s = (tt, s, [])).
  { apply handleSendMessage_returns. destruct H as [H|H].
    - apply truthy_trim_false in H. rewrite H. reflexivity.
    - rewrite H. apply orb_true_r. }
  unfold after, effects. rewrite E. done.
Qed.

Lemma C5_submit_rejected_is_noop_witness :
  let s := {| messages := []; input := lit "  "; isLoading := false;
              conversationId := None; isConfirmed := false;
              isAwaitingConfirmation := false |} in
  handleSendMessage (lit "a") 1%Z Rejected (lit "b") 2%Z s = (tt, s, [])
  /\ after (handleSendMessage (lit "a") 1%Z Rejected (lit "b") 2%Z) s = s
  /\ requests (effects (handleSendMessage (lit "a") 1%Z Rejected (lit "b") 2%Z) s) = [].
Proof.
  intros s. apply (C5_submit_rejected_is_noop s). left. reflexivity.
Defined.

(** ** Failure of the gateway call in [submit] *)

Lemma transport_failure_caught r : transport_failure r -> awaitJson r = None.
Proof. destruct r as [|status body]; simpl; [done|]. intros ->. done. Qed.

(** C3. When the gateway call of [submit] fails (network error or
    non-2xx status), the message list gains the user message followed by
    exactly one assistant message with the fixed error text; the two mode
    flags and the conversation identifier keep their values; the
    in-flight flag is false afterwards. *)
Theorem C3_submit_failure :
  forall (s : State) id1 t1 r id2 t2,
    trim (input s) <> [] ->
    isLoading s = false ->
    transport_failure r ->
    let s' := after (handleSendMessage id1 t1 r id2 t2) s in
    messages s' = messages s ++ [userMessage id1 (trim (input s)) t1;
                                 assistantMessage id2 CONNECTION_ERROR t2]
    /\ isConfirmed s' = isConfirmed s
    /\ isAwaitingConfirmation s' = isAwaitingConfirmation s
    /\ mode s' = mode s
    /\ conversationId s' = conversationId s
    /\ isLoading s' = false.
Proof.
  intros s id1 t1 r id2 t2 Ht Hl Hr s'. subst s'.
  rewrite handleSendMessage_failed;
    [done | | exact Hl | exact (transport_failure_caught r Hr)].
  destruct (trim (input s)); done.
Qed.

Lemma C3_submit_failure_witness :
  let s := {| messages := []; input := lit "hello"; isLoading := false;
              conversationId := Some (lit "abc"); isConfirmed := false;
              isAwaitingConfirmation := true |} in
  let s' := after (handleSendMessage (lit "a") 1%Z
                     (Responded 500 InvalidJson) (lit "b") 2%Z) s in
  messages s' = messages s ++ [userMessage (lit "a") (trim (input s)) 1%Z;
                               assistantMessage (lit "b") CONNECTION_ERROR 2%Z]
  /\ isConfirmed s' = isConfirmed s
  /\ isAwaitingConfirmation s' = isAwaitingConfirmation s
  /\ mode s' = mode s
  /\ conversationId s' = conversationId s
  /\ isLoading s' = false.
Proof.
  intros s. apply (C3_submit_failure s); [vm_compute; discriminate | reflexivity | reflexivity].
Defined.

(** ** Reset *)

(** C6. [reset] leaves a message list with exactly one message, the
    greeting carrying the identifier just generated and the current time,
    a null conversation identifier and the composing mode. *)
Theorem C6_reset :
  forall loadId loadTime (s : State) newId now,
    let s' := after (handleStartNewConversation loadId loadTime newId now) s in
    messages s' = [ {| Message.id := newId;
                       Message.role := assistant;
                       Message.content := GREETING;
                       Message.timestamp := now;
                       Message.suggestedQueries := None |} ]
    /\ length (messages s') = 1%nat
    /\ conversationId s' = None
    /\ mode s' = Composing.
Proof. intros. subst s'. rewrite handleStartNewConversation_after. done. Qed.

(** ** The message list only grows *)

(** C9. Under [submit] and [respondToConfirmation], whatever the gateway
    answers, the former message list is a prefix of the new one, so every
    message keeps its place and its identifier, role, content and
    timestamp. *)
Theorem C9_messages_append_only :
  forall (s : State) choice id1 t1 r id2 t2,
    let s1 := after (handleSendMessage id1 t1 r id2 t2) s in
    let s2 := after (handleConfirmationResponse choice id1 t1 r id2 t2) s in
    messages s `prefix_of` messages s1
    /\ messages s `prefix_of` messages s2
    /\ (forall i m, messages s !! i = Some m -> messages s1 !! i = Some m)
    /\ (forall i m, messages s !! i = Some m -> messages s2 !! i = Some m).
Proof.
  intros s choice id1 t1 r id2 t2 s1 s2.
  assert (P1 : messages s `prefix_of` messages s1).
  { subst s1.
    destruct (negb (truthy_string (trim (input s))) || isLoading s) eqn:E.
    - unfold after. rewrite handleSendMessage_returns by exact E. done.
    - apply orb_false_elim in E as [Ht Hl]. apply negb_false_iff in Ht.
      destruct (awaitJson r) as [data|] eqn:Hr.
      + rewrite (handleSendMessage_replied _ _ _ _ _ _ data) by done.
        apply prefix_app_r. done.
      + rewrite handleSendMessage_failed by done. apply prefix_app_r. done. }
  assert (P2 : messages s `prefix_of` messages s2).
  { subst s2. destruct (isLoading s) eqn:Hl.
    - unfold after. rewrite handleConfirmationResponse_returns by exact Hl. done.
    - destruct (awaitJson r) as [data|] eqn:Hr.
      + rewrite (handleConfirmationResponse_replied _ _ _ _ _ _ _ data) by done.
        apply prefix_app_r. done.
      + rewrite handleConfirmationResponse_failed by done.
        apply prefix_app_r. done. }
  repeat split; eauto using prefix_lookup_Some.
Qed.

(** ** What a confirmation shows and what it sends *)

(** C10. For the alternative choice the user message appended to the list
    reads "No, let me change something" while the message sent to the
    gateway in the same call is "I want to change something"; for the
    affirmative choice the list shows "Yes" and the gateway receives
    "yes". *)
Theorem C10_confirmation_texts :
  forall (s : State) choice id1 t1 r id2 t2,
    isLoading s = false ->
    let h := handleConfirmationResponse choice id1 t1 r id2 t2 in
    messages (after h s) !! length (messages s) =
      Some (userMessage id1
              match choice with
              | yes => lit "Yes"
              | no => lit "No, let me change something"
              end t1)
    /\ requests (effects h s) =
         [ {| Request.message :=
                match choice with
                | yes => lit "yes"
                | no => lit "I want to change something"
                end;
              Request.conversation_id := conversationId s |} ]
    /\ shown no <> sent no
    /\ shown yes <> sent yes.
Proof.
  intros s choice id1 t1 r id2 t2 Hl h. subst h.
  rewrite handleConfirmationResponse_requests by exact Hl.
  split; [|split; [destruct choice; reflexivity | split; vm_compute; discriminate]].
  destruct (awaitJson r) as [data|] eqn:Hr.
  - rewrite (handleConfirmationResponse_replied _ _ _ _ _ _ _ data) by done.
    simpl. rewrite lookup_app_r by lia. rewrite Nat.sub_diag.
    destruct choice; reflexivity.
  - rewrite handleConfirmationResponse_failed by done.
    simpl. rewrite lookup_app_r by lia. rewrite Nat.sub_diag.
    destruct choice; reflexivity.
Qed.

Lemma C10_confirmation_texts_witness :
  let s := {| messages := []; input := []; isLoading := false;
              conversationId := Some (lit "abc"); isConfirmed := false;
              isAwaitingConfirmation := true |} in
  let h := handleConfirmationResponse no (lit "a") 1%Z Rejected (lit "b") 2%Z in
  messages (after h s) !! length (messages s) =
    Some (userMessage (lit "a") (lit "No, let me change something") 1%Z)
  /\ requests (effects h s) =
       [ {| Request.message := lit "I want to change something";
            Request.conversation_id := conversationId s |} ]
  /\ shown no <> sent no
  /\ shown yes <> sent yes.
Proof.
  intros s. apply (C10_confirmation_texts s no). reflexivity.
Defined.

(** ** Modes *)

Lemma mode_Confirmed_iff s : mode s = Confirmed <-> isConfirmed s = true.
Proof. unfold mode. destruct (isConfirmed s), (isAwaitingConfirmation s); split; done. Qed.

Lemma mode_AwaitingConfirmation_iff s :
  mode s = AwaitingConfirmation <->
  isConfirmed s = false /\ isAwaitingConfirmation s = true.
Proof.
  unfold mode. destruct (isConfirmed s), (isAwaitingConfirmation s);
    split; try done; intros [? ?]; done.
Qed.

Lemma mode_Composing_iff s :
  mode s = Composing <->
  isConfirmed s = false /\ isAwaitingConfirmation s = false.
Proof.
  unfold mode. destruct (isConfirmed s), (isAwaitingConfirmation s);
    split; try done; intros [? ?]; done.
Qed.

(** Neither settling handler ever clears [isConfirmed]. *)
Lemma settle_keeps_isConfirmed k r newId now s :
  isConfirmed s = true ->
  isConfirmed (after (settle k r newId now) s) = true.
Proof.
  intros H. destruct k; run; destruct (awaitJson r) as [data|]; run; try done.
  - destruct (truthy_id (conversation_id data)),
      (truthy_flag (confirmed data)),
      (truthy_flag (awaiting_confirmation data)); done.
  - destruct (truthy_flag (confirmed data)); done.
Qed.

Lemma handleSendMessage_keeps_isConfirmed id1 t1 r id2 t2 s :
  isConfirmed s = true ->
  isConfirmed (after (handleSendMessage id1 t1 r id2 t2) s) = true.
Proof.
  intros H.
  destruct (negb (truthy_string (trim (input s))) || isLoading s) eqn:E.
  - unfold after. rewrite handleSendMessage_returns by exact E. exact H.
  - apply orb_false_elim in E as [Ht Hl]. apply negb_false_iff in Ht.
    destruct (awaitJson r) as [data|] eqn:Hr.
    + rewrite (handleSendMessage_replied _ _ _ _ _ _ data) by done.
      simpl. rewrite H. apply orb_true_r.
    + rewrite handleSendMessage_failed by done. exact H.
Qed.

Lemma handleConfirmationResponse_keeps_isConfirmed choice id1 t1 r id2 t2 s :
  isConfirmed s = true ->
  isConfirmed (after (handleConfirmationResponse choice id1 t1 r id2 t2) s) = true.
Proof.
  intros H. destruct (isLoading s) eqn:Hl.
  - unfold after. rewrite handleConfirmationResponse_returns by exact Hl. exact H.
  - destruct (awaitJson r) as [data|] eqn:Hr.
    + rewrite (handleConfirmationResponse_replied _ _ _ _ _ _ _ data) by done.
      simpl. rewrite H. apply orb_true_r.
    + rewrite handleConfirmationResponse_failed by done. exact H.
Qed.

(** In the confirmed footer the only control is the button bound to
    [handleStartNewConversation]. *)
Lemma available_Confirmed s e :
  mode s = Confirmed -> available s e = true -> e = ClickStartNewConversation.
Proof. unfold available. intros ->. destruct e; done. Qed.

(** ** The confirmed mode is terminal *)

(** C8. From a state whose mode is confirmed, neither [submit] nor
    [respondToConfirmation] changes the mode, whatever the gateway
    answers, and neither does a pending call that settles; of all the
    turns of the running component only a reset leaves the confirmed
    mode, and it restores the composing mode, a null conversation
    identifier and a message list holding the greeting alone. *)
Theorem C8_confirmed_is_terminal :
  forall loadId loadTime (s : State),
    mode s = Confirmed ->
    (forall text id1 t1 r id2 t2,
        mode (after (setInput text;; handleSendMessage id1 t1 r id2 t2) s)
        = Confirmed)
    /\ (forall choice id1 t1 r id2 t2,
        mode (after (handleConfirmationResponse choice id1 t1 r id2 t2) s)
        = Confirmed)
    /\ (forall k r newId now,
        mode (after (settle k r newId now) s) = Confirmed)
    /\ (forall newId now,
        let s' := after (handleStartNewConversation loadId loadTime newId now) s in
        mode s' = Composing
        /\ conversationId s' = None
        /\ messages s' = [assistantMessage newId GREETING now])
    /\ (forall fl c',
        step loadId loadTime {| view := s; inflight := fl |} c' ->
        mode (view c') <> Confirmed ->
        exists newId now,
          view c' = after (handleStartNewConversation loadId loadTime newId now) s).
Proof.
  intros loadId loadTime s Hm. pose proof Hm as Hc.
  apply mode_Confirmed_iff in Hc.
  split; [|split; [|split; [|split]]].
  - intros. apply mode_Confirmed_iff.
    rewrite after_bind. apply handleSendMessage_keeps_isConfirmed. exact Hc.
  - intros. apply mode_Confirmed_iff.
    apply handleConfirmationResponse_keeps_isConfirmed. exact Hc.
  - intros. apply mode_Confirmed_iff. apply settle_keeps_isConfirmed. exact Hc.
  - intros. subst s'. rewrite handleStartNewConversation_after. done.
  - intros fl c' Hstep Hleft. inversion Hstep as [c e newId now Hav|c l1 k l2 r newId now Hfl]; subst.
    + simpl in Hav. apply (available_Confirmed _ _ Hm) in Hav. subst e.
      exists newId, now. reflexivity.
    + exfalso. apply Hleft. apply mode_Confirmed_iff. simpl.
      apply settle_keeps_isConfirmed. exact Hc.
Qed.

Lemma C8_confirmed_is_terminal_witness :
  let s := {| messages := []; input := []; isLoading := false;
              conversationId := Some (lit "abc"); isConfirmed := true;
              isAwaitingConfirmation := false |} in
  mode (after (setInput (lit "more");;
               handleSendMessage (lit "a") 1%Z
                 (Responded 200 (Json {| response := lit "ok";
                                         conversation_id := None;
                                         confirmed := None;
                                         awaiting_confirmation := Some true |}))
                 (lit "b") 2%Z) s) = Confirmed.
Proof.
  intros s.
  exact (proj1 (C8_confirmed_is_terminal (lit "g") 0%Z s eq_refl)
           (lit "more") (lit "a") 1%Z _ (lit "b") 2%Z).
Defined.

(** ** One mode at a time *)

Lemma consistent_mounted loadId loadTime : consistent (mounted loadId loadTime).
Proof. done. Qed.

Lemma consistent_step loadId loadTime c c' :
  step loadId loadTime c c' -> consistent c -> consistent c'.
Proof.
  intros Hstep. destruct Hstep as [c e newId now Hav|c l1 k l2 r newId now Hfl].
  - destruct c as [[ms inp ld cid conf aw] fl].
    unfold consistent, available, mode in *. simpl in *.
    destruct fl as [|k0 [|k1 fl]]; simpl; [| |done].
    + intros [-> Hflags].
      destruct conf, aw; try discriminate Hflags;
        destruct e; try discriminate Hav; simpl in *; run; try done.
      * destruct (bool_decide (key = lit "Enter") && negb shiftKey); run;
          [|done].
        destruct (truthy_string (trim inp)); run; done.
      * destruct (truthy_string (trim inp)); run; done.
    + intros [-> ->].
      destruct aw; destruct e; simpl in Hav; rewrite ?orb_true_r in Hav;
        discriminate Hav.
  - unfold consistent. rewrite Hfl. simpl.
    destruct l1 as [|k1 [|k2 l1]], l2 as [|k3 l2]; simpl; try done.
    intros [Hl Hc]. destruct c as [[ms inp ld cid conf aw] fl].
    simpl in *. subst ld conf.
    destruct k; run; destruct (awaitJson r) as [data|]; run; try done.
    + destruct (truthy_id (conversation_id data)),
        (truthy_flag (confirmed data)),
        (truthy_flag (awaiting_confirmation data)); done.
    + destruct (truthy_flag (confirmed data)),
        (truthy_flag (awaiting_confirmation data)); done.
Qed.

Lemma consistent_reachable loadId loadTime c :
  reachable loadId loadTime c -> consistent c.
Proof.
  unfold reachable. revert c. apply rtc_ind_r.
  - apply consistent_mounted.
  - intros c1 c2 _ Hstep IH. exact (consistent_step _ _ _ _ Hstep IH).
Qed.

Lemma consistent_flags c :
  consistent c -> isConfirmed (view c) && isAwaitingConfirmation (view c) = false.
Proof.
  unfold consistent. destruct (inflight c) as [|k [|k' l]]; [tauto| |done].
  intros [_ ->]. done.
Qed.

(** C7. In every state the running component reaches from
    its first render through the controls its footer offers and the
    settling of its gateway calls, exactly one of the three modes holds
    and the flags [isConfirmed] and [isAwaitingConfirmation] are not both
    true; moreover at most one gateway call is pending. *)
Theorem C7_one_mode_at_a_time :
  forall loadId loadTime (c : Component),
    reachable loadId loadTime c ->
    let s := view c in
    isConfirmed s && isAwaitingConfirmation s = false
    /\ ((mode s = Composing
         /\ isConfirmed s = false /\ isAwaitingConfirmation s = false)
        \/ (mode s = AwaitingConfirmation
            /\ isConfirmed s = false /\ isAwaitingConfirmation s = true)
        \/ (mode s = Confirmed
            /\ isConfirmed s = true /\ isAwaitingConfirmation s = false))
    /\ (length (inflight c) <= 1)%nat.
Proof.
  intros loadId loadTime c Hr s. subst s.
  apply consistent_reachable in Hr. pose proof (consistent_flags c Hr) as Hf.
  split; [exact Hf|]. split.
  - unfold mode.
    destruct (isConfirmed (view c)), (isAwaitingConfirmation (view c));
      try discriminate Hf; auto.
  - unfold consistent in Hr.
    destruct (inflight c) as [|k [|k' l]]; simpl; [lia|lia|done].
Qed.

Lemma C7_one_mode_at_a_time_witness :
  let c1 := dispatch (lit "g") 0%Z (ChangeInput (lit "hi")) (lit "x") 1%Z
              (mounted (lit "g") 0%Z) in
  let c2 := dispatch (lit "g") 0%Z ClickSend (lit "u") 2%Z c1 in
  let r := Responded 200 (Json {| response := lit "Search Fall 2024?";
                                  conversation_id := Some (lit "abc");
                                  confirmed := None;
                                  awaiting_confirmation := Some true |}) in
  let c3 := {| view := after (settle PendingSend r (lit "v") 3%Z) (view c2);
               inflight := [] ++ [] |} in
  mode (view c3) = AwaitingConfirmation
  /\ isConfirmed (view c3) && isAwaitingConfirmation (view c3) = false.
Proof.
  intros c1 c2 r c3. split; [reflexivity|].
  refine (proj1 (C7_one_mode_at_a_time (lit "g") 0%Z c3 _)).
  unfold reachable.
  apply rtc_l with c1; [apply step_user; reflexivity|].
  apply rtc_l with c2; [apply step_user; reflexivity|].
  apply rtc_once.
  exact (step_settle (lit "g") 0%Z c2 [] PendingSend [] r (lit "v") 3%Z eq_refl).
Defined.

(** ** The mode after a reply to [submit] *)

(** What [handleSendMessage] makes of a reply, from any state in which it
    runs: [confirmed] wins; without it the awaiting flag follows the
    reply and [isConfirmed] keeps its value. *)
Lemma handleSendMessage_mode (s : State) id1 t1 r id2 t2 data :
  trim (input s) <> [] ->
  isLoading s = false ->
  awaitJson r = Some data ->
  let s' := after (handleSendMessage id1 t1 r id2 t2) s in
  (truthy_flag (confirmed data) = true -> mode s' = Confirmed)
  /\ (truthy_flag (confirmed data) = false ->
      truthy_flag (awaiting_confirmation data) = false ->
      mode s <> Confirmed -> mode s' = Composing)
  /\ (truthy_flag (confirmed data) = false ->
      truthy_flag (awaiting_confirmation data) = true ->
      mode s <> Confirmed -> mode s' = AwaitingConfirmation)
  /\ (mode s = Confirmed -> mode s' = Confirmed).
Proof.
  intros Ht Hl Hr s'. subst s'.
  rewrite (handleSendMessage_replied _ _ _ _ _ _ data);
    [|destruct (trim (input s)); done|exact Hl|exact Hr].
  unfold mode. simpl.
  destruct (truthy_flag (confirmed data)),
    (truthy_flag (awaiting_confirmation data)),
    (isConfirmed s), (isAwaitingConfirmation s); simpl;
    repeat split; intros; congruence.
Qed.

(** The send button is offered in the composing footer only, to a
    component that is not loading and whose input is not blank. *)
Lemma send_offered (s : State) :
  available s ClickSend = true ->
  mode s = Composing /\ trim (input s) <> [] /\ isLoading s = false.
Proof.
  unfold available, mode.
  destruct (isConfirmed s), (isAwaitingConfirmation s); try discriminate.
  destruct (trim (input s)), (isLoading s); simpl; try discriminate. done.
Qed.

(** While a call is pending in the running component, [isConfirmed] is
    not set. *)
Lemma pending_not_confirmed loadId loadTime c l1 k l2 :
  reachable loadId loadTime c ->
  inflight c = l1 ++ k :: l2 ->
  l1 = [] /\ l2 = [] /\ isLoading (view c) = true /\ isConfirmed (view c) = false.
Proof.
  intros Hr Hfl. apply consistent_reachable in Hr.
  unfold consistent in Hr. rewrite Hfl in Hr.
  destruct l1 as [|k1 [|k2 l1]], l2 as [|k3 l2]; simpl in Hr; done.
Qed.

(** C2. Every successful reply to a [submit] of the running component
    sets the mode by the reply's flags, [confirmed] first: a reply with
    [confirmed] true yields the confirmed mode whatever its
    [awaiting_confirmation], and that from any state in which the handler
    runs, whatever the mode before; a reply with neither flag set yields
    the composing mode (and one with [awaiting_confirmation] alone the
    awaiting mode).  The same holds of a whole run of [handleSendMessage]
    from any state in which the footer offers the send button. *)
Theorem C2_mode_after_reply :
  forall loadId loadTime (c : Component) l1 l2 r newId now data,
    reachable loadId loadTime c ->
    inflight c = l1 ++ PendingSend :: l2 ->
    awaitJson r = Some data ->
    let s' := after (handleSendMessage_settle r newId now) (view c) in
    let by_flags :=
      if truthy_flag (confirmed data) then Confirmed
      else if truthy_flag (awaiting_confirmation data)
           then AwaitingConfirmation else Composing in
    mode s' = by_flags
    /\ (truthy_flag (confirmed data) = true -> mode s' = Confirmed)
    /\ (truthy_flag (confirmed data) = false ->
        truthy_flag (awaiting_confirmation data) = false ->
        mode s' = Composing)
    /\ (forall (s : State) id1 t1,
          trim (input s) <> [] -> isLoading s = false ->
          truthy_flag (confirmed data) = true ->
          mode (after (handleSendMessage id1 t1 r newId now) s) = Confirmed)
    /\ (forall (s : State) id1 t1,
          available s ClickSend = true ->
          mode (after (handleSendMessage id1 t1 r newId now) s) = by_flags).
Proof.
  intros loadId loadTime c l1 l2 r newId now data Hr Hfl Hd s' by_flags.
  destruct (pending_not_confirmed _ _ _ _ _ _ Hr Hfl) as (_ & _ & _ & Hc).
  assert (E : mode s' = by_flags).
  { subst s' by_flags. unfold mode. run. rewrite Hd. run.
    destruct (truthy_id (conversation_id data)),
      (truthy_flag (confirmed data)),
      (truthy_flag (awaiting_confirmation data)); run;
      rewrite ?Hc; reflexivity. }
  split; [exact E|]. subst by_flags.
  split; [intros H; rewrite H in E; exact E|].
  split; [intros H1 H2; rewrite H1, H2 in E; exact E|].
  split.
  - intros s id1 t1 Ht Hl Hconf.
    exact (proj1 (handleSendMessage_mode s id1 t1 r newId now data Ht Hl Hd) Hconf).
  - intros s id1 t1 Hav. destruct (send_offered s Hav) as (Hm & Ht & Hl).
    destruct (handleSendMessage_mode s id1 t1 r newId now data Ht Hl Hd)
      as (H1 & H2 & H3 & _).
    assert (Hn : mode s <> Confirmed) by (rewrite Hm; discriminate).
    destruct (truthy_flag (confirmed data)); [by apply H1|].
    destruct (truthy_flag (awaiting_confirmation data)); [by apply H3|by apply H2].
Qed.

Lemma C2_mode_after_reply_witness :
  let c1 := dispatch (lit "g") 0%Z (ChangeInput (lit "fall 2024")) (lit "x") 1%Z
              (mounted (lit "g") 0%Z) in
  let c2 := dispatch (lit "g") 0%Z ClickSend (lit "u") 2%Z c1 in
  let data := {| response := lit "Done."; conversation_id := Some (lit "abc");
                 confirmed := Some true;
                 awaiting_confirmation := Some true |} in
  inflight c2 = [PendingSend]
  /\ mode (after (handleSendMessage_settle (Responded 200 (Json data))
                    (lit "v") 3%Z) (view c2)) = Confirmed.
Proof.
  intros c1 c2 data. split; [reflexivity|].
  refine (proj1 (C2_mode_after_reply (lit "g") 0%Z c2 [] []
                   (Responded 200 (Json data)) (lit "v") 3%Z data
                   _ eq_refl eq_refl)).
  unfold reachable.
  apply rtc_l with c1; [apply step_user; reflexivity|].
  apply rtc_once. apply step_user. reflexivity.
Defined.

(** ** Confirmation outside the awaiting mode *)

(** The two confirmation buttons are rendered and enabled exactly while
    the mode is awaiting confirmation and no request is in flight; the
    handler itself looks at the in-flight flag only. *)
Lemma handleConfirmationResponse_guard (s : State) choice id1 t1 r id2 t2 :
  let h := handleConfirmationResponse choice id1 t1 r id2 t2 in
  (available s ClickYes = true <->
     mode s = AwaitingConfirmation /\ isLoading s = false)
  /\ (available s ClickChange = true <->
        mode s = AwaitingConfirmation /\ isLoading s = false)
  /\ (isLoading s = true -> h s = (tt, s, []))
  /\ (isLoading s = false ->
      messages (after h s) !! length (messages s)
        = Some (userMessage id1 (shown choice) t1)
      /\ requests (effects h s) =
           [ {| Request.message := sent choice;
                Request.conversation_id := conversationId s |} ]).
Proof.
  intros h. subst h.
  split; [|split; [|split]].
  - unfold available, mode.
    destruct (isConfirmed s), (isAwaitingConfirmation s), (isLoading s);
      simpl; split; try done; intros [? ?]; done.
  - unfold available, mode.
    destruct (isConfirmed s), (isAwaitingConfirmation s), (isLoading s);
      simpl; split; try done; intros [? ?]; done.
  - apply handleConfirmationResponse_returns.
  - intros Hl. split; [|apply handleConfirmationResponse_requests; exact Hl].
    destruct (awaitJson r) as [data|] eqn:Hr.
    + rewrite (handleConfirmationResponse_replied _ _ _ _ _ _ _ data) by done.
      simpl. rewrite lookup_app_r by lia. rewrite Nat.sub_diag. reflexivity.
    + rewrite handleConfirmationResponse_failed by done.
      simpl. rewrite lookup_app_r by lia. rewrite Nat.sub_diag. reflexivity.
Qed.




(** ** Reply handling after a confirmation *)

(** On a reply that brings no conversation identifier, the second half of
    [handleConfirmationResponse] leaves the state the second half of
    [handleSendMessage] leaves. *)
Lemma settle_same_without_id r newId now s data :
  awaitJson r = Some data ->
  truthy_id (conversation_id data) = false ->
  after (handleConfirmationResponse_settle r newId now) s
  = after (handleSendMessage_settle r newId now) s.
Proof.
  intros Hr Hid. run. rewrite Hr, Hid. run.
  destruct (truthy_flag (confirmed data)),
    (truthy_flag (awaiting_confirmation data)); reflexivity.
Qed.

(** C1. [respondToConfirmation] does not handle the gateway's answer as
    [submit] does.  In the awaiting state below, when the call fails the
    confirmation leaves only its own user message in the list where
    [submit] goes on to append the fixed error message; and when the reply
    supplies a conversation identifier the confirmation keeps the old one
    where [submit] stores the new one. *)
Theorem C1_confirmation_handling_differs :
  let s := {| messages := [assistantMessage (lit "g") GREETING 0%Z;
                           userMessage (lit "a") (lit "fall 2024") 1%Z;
                           assistantMessage (lit "b") (lit "Search Fall 2024?") 2%Z];
              input := []; isLoading := false;
              conversationId := Some (lit "abc"); isConfirmed := false;
              isAwaitingConfirmation := true |} in
  let reply := Responded 200 (Json {| response := lit "Done.";
                                      conversation_id := Some (lit "xyz");
                                      confirmed := Some true;
                                      awaiting_confirmation := None |}) in
  let respond r := handleConfirmationResponse yes (lit "c") 3%Z r (lit "d") 4%Z in
  let submit r := setInput (lit "yes");;
                  handleSendMessage (lit "c") 3%Z r (lit "d") 4%Z in
  messages (after (respond Rejected) s)
    = messages s ++ [userMessage (lit "c") (lit "Yes") 3%Z]
  /\ messages (after (submit Rejected) s)
    = messages s ++ [userMessage (lit "c") (lit "yes") 3%Z;
                     assistantMessage (lit "d") CONNECTION_ERROR 4%Z]
  /\ messages (after (respond (Responded 503 InvalidJson)) s)
    = messages s ++ [userMessage (lit "c") (lit "Yes") 3%Z]
  /\ conversationId (after (respond reply) s) = Some (lit "abc")
  /\ conversationId (after (submit reply) s) = Some (lit "xyz").
Proof. vm_compute. repeat split. Qed.

(** ** Turns of the running component and the message list *)

(** A turn of the event loop either keeps the message list as a prefix
    of the new one or is a reset. *)
Lemma step_messages loadId loadTime c c' :
  step loadId loadTime c c' ->
  messages (view c) `prefix_of` messages (view c')
  \/ exists newId now,
       view c' = after (handleStartNewConversation loadId loadTime newId now)
                       (view c).
Proof.
  intros [c0 e newId now Hav|c0 l1 k l2 r newId now Hfl].
  - destruct e; simpl; try (right; eauto; fail); left.
    + run. destruct (isLoading (view c0)); run; [done|]. by apply prefix_app_r.
    + run. destruct (isLoading (view c0)); run; [done|]. by apply prefix_app_r.
    + done.
    + run. destruct (bool_decide (key = lit "Enter") && negb shiftKey); run;
        [|done].
      destruct (negb (truthy_string (trim (input (view c0))))
                || isLoading (view c0)); run; [done|]. by apply prefix_app_r.
    + run. destruct (negb (truthy_string (trim (input (view c0))))
                     || isLoading (view c0)); run; [done|]. by apply prefix_app_r.
  - left. simpl. destruct k; run; destruct (awaitJson r) as [data|]; run;
      try done; try (by apply prefix_app_r).
    + destruct (truthy_id (conversation_id data)),
        (truthy_flag (confirmed data)),
        (truthy_flag (awaiting_confirmation data)); run;
        by apply prefix_app_r.
    + destruct (truthy_flag (confirmed data)); run; by apply prefix_app_r.
Qed.

(** * Further properties of the component *)

(** ** What [trim] keeps *)

Lemma dropWhile_split {A} (p : A -> bool) (l : list A) :
  exists pre, l = pre ++ dropWhile p l /\ forallb p pre = true.
Proof.
  induction l as [|x l (pre & E & Hp)]; simpl; [by exists []|].
  destruct (p x) eqn:Hx; [|by exists []].
  exists (x :: pre). simpl. rewrite Hx, Hp. split; [congruence|done].
Qed.

(** [trim] cuts white space off both ends and nothing else. *)
Lemma trim_split (s : jsstring) :
  exists pre post,
    s = pre ++ trim s ++ post
    /\ forallb isWhiteSpace pre = true
    /\ forallb isWhiteSpace post = true.
Proof.
  unfold trim, trimEnd, trimStart.
  destruct (dropWhile_split isWhiteSpace s) as (pre & E1 & Hpre).
  destruct (dropWhile_split isWhiteSpace (rev (dropWhile isWhiteSpace s)))
    as (q & E2 & Hq).
  exists pre, (rev q). rewrite forallb_rev. split; [|done].
  rewrite <- rev_app_distr, <- E2, rev_involutive. exact E1.
Qed.

Lemma trim_head (s : jsstring) c :
  head (trim s) = Some c -> isWhiteSpace c = false.
Proof.
  intros H. apply head_Some in H as [l Hl].
  destruct (dropWhile_split isWhiteSpace (rev (dropWhile isWhiteSpace s)))
    as (q & E2 & _).
  apply (f_equal (@rev N)) in E2.
  rewrite rev_involutive, rev_app_distr in E2.
  unfold trim, trimEnd, trimStart in Hl. rewrite Hl in E2. simpl in E2.
  exact (dropWhile_head _ _ _ _ E2).
Qed.

Lemma trim_last (s : jsstring) c :
  last (trim s) = Some c -> isWhiteSpace c = false.
Proof.
  intros H. apply last_Some in H as [l Hl].
  unfold trim, trimEnd in Hl. apply (f_equal (@rev N)) in Hl.
  rewrite rev_involutive, rev_app_distr in Hl. simpl in Hl.
  exact (dropWhile_head _ _ _ _ Hl).
Qed.

Lemma trim_truthy (s : jsstring) :
  trim s <> [] -> truthy_string (trim s) = true.
Proof. destruct (trim s); done. Qed.

(** ** The send button and the Enter key *)

(** X1. The send button is enabled exactly when the footer is the
    composing one and [handleSendMessage] would go through with the call:
    its [disabled] condition (line 296) is the guard of line 65. *)
Theorem X1_send_enabled_iff_accepted :
  forall (s : State) newId now,
    available s ClickSend = true <->
    mode s = Composing
    /\ fst (fst (handleSendMessage_begin newId now s)) = true.
Proof.
  intros s newId now. unfold available, mode. run.
  destruct (isConfirmed s), (isAwaitingConfirmation s); simpl;
    try (split; [discriminate|intros [? ?]; discriminate]).
  destruct (negb (truthy_string (trim (input s))) || isLoading s);
    simpl; split; try done; intros [? ?]; done.
Qed.

(** X2. A key pressed in the input changes nothing unless it is Enter
    without Shift; Enter without Shift does what a click on the send
    button does, and so changes nothing either when the input holds only
    white space or a request is in flight. *)
Theorem X2_key_handling :
  forall loadId loadTime key shiftKey newId now (c : Component),
    (key <> lit "Enter" \/ shiftKey = true ->
     dispatch loadId loadTime (KeyDownInput key shiftKey) newId now c = c)
    /\ dispatch loadId loadTime (KeyDownInput (lit "Enter") false) newId now c
       = dispatch loadId loadTime ClickSend newId now c
    /\ (forallb isWhiteSpace (input (view c)) = true
        \/ isLoading (view c) = true ->
        dispatch loadId loadTime (KeyDownInput (lit "Enter") false) newId now c
        = c).
Proof.
  intros loadId loadTime key shiftKey newId now [s fl].
  split; [|split].
  - intros H. simpl. unfold launch, handleKeyDown.
    destruct (bool_decide (key = lit "Enter") && negb shiftKey) eqn:E;
      [|reflexivity].
    apply andb_true_iff in E as [E1 E2]. apply bool_decide_eq_true in E1.
    apply negb_true_iff in E2. destruct H; congruence.
  - reflexivity.
  - intros H. simpl. unfold launch, handleKeyDown. simpl.
    assert (G : negb (truthy_string (trim s.(input))) || isLoading s = true).
    { destruct H as [H|H].
      - apply truthy_trim_false in H. simpl in H. rewrite H. reflexivity.
      - simpl in H. rewrite H. apply orb_true_r. }
    run. rewrite G. reflexivity.
Qed.

(** ** Controls are offered only to an idle component *)

Lemma available_idle loadId loadTime c e :
  reachable loadId loadTime c ->
  available (view c) e = true ->
  isLoading (view c) = false /\ inflight c = [].
Proof.
  intros Hr Hav. apply consistent_reachable in Hr.
  unfold consistent in Hr. unfold available, mode in Hav.
  destruct (inflight c) as [|k [|k' l]]; [tauto| |done].
  destruct Hr as [Hl Hc]. rewrite Hl, Hc in Hav.
  destruct (isAwaitingConfirmation (view c)), e; simpl in Hav;
    rewrite ?orb_true_r in Hav; discriminate Hav.
Qed.

Lemma send_enabled_accepted s newId now :
  available s ClickSend = true ->
  fst (fst (handleSendMessage_begin newId now s)) = true.
Proof.
  unfold available, mode. run.
  destruct (isConfirmed s), (isAwaitingConfirmation s); try discriminate.
  destruct (negb (truthy_string (trim (input s))) || isLoading s);
    [discriminate|reflexivity].
Qed.

(** ** The in-flight flag of the running component *)

(** X3. In every state the running component reaches, [isLoading] is
    set exactly while a gateway call is pending; while it is set the
    footer offers no control at all, so nothing can be sent or reset
    before the call settles; and no call is pending in the confirmed
    mode. *)
Theorem X3_inflight_flag :
  forall loadId loadTime (c : Component),
    reachable loadId loadTime c ->
    (isLoading (view c) = true <-> inflight c <> [])
    /\ (isLoading (view c) = true -> forall e, available (view c) e = false)
    /\ (mode (view c) = Confirmed -> inflight c = []).
Proof.
  intros loadId loadTime c Hr. apply consistent_reachable in Hr.
  unfold consistent in Hr. unfold available, mode.
  destruct (inflight c) as [|k [|k' l]]; [| |done].
  - destruct Hr as [Hl _]. rewrite Hl.
    split; [split; [discriminate|intros H; by destruct H]|].
    split; [discriminate|reflexivity].
  - destruct Hr as [Hl Hc]. rewrite Hl, Hc.
    split; [split; [discriminate|reflexivity]|].
    split; [|destruct (isAwaitingConfirmation (view c)); discriminate].
    intros _ e. destruct (isAwaitingConfirmation (view c)), e; simpl;
      rewrite ?orb_true_r; reflexivity.
Qed.

Lemma X3_inflight_flag_witness :
  let c1 := dispatch (lit "g") 0%Z (ChangeInput (lit "hi")) (lit "x") 1%Z
              (mounted (lit "g") 0%Z) in
  let c2 := dispatch (lit "g") 0%Z ClickSend (lit "u") 2%Z c1 in
  inflight c2 = [PendingSend]
  /\ (isLoading (view c2) = true <-> inflight c2 <> []).
Proof.
  intros c1 c2. split; [reflexivity|].
  refine (proj1 (X3_inflight_flag (lit "g") 0%Z c2 _)).
  unfold reachable.
  apply rtc_l with c1; [apply step_user; reflexivity|].
  apply rtc_once. apply step_user. reflexivity.
Defined.

(** ** Reset *)

(** X4. Wherever the running component offers a reset (the
    "Start New Conversation" and "Start Over" buttons), using it puts
    the component back in the state of a first render whose greeting
    carries the new identifier and time: no call is pending, the in-flight
    flag is clear, the input is empty. *)
Theorem X4_reset_restarts :
  forall loadId loadTime (c : Component) e newId now,
    reachable loadId loadTime c ->
    available (view c) e = true ->
    e = ClickStartNewConversation \/ e = ClickStartOver ->
    dispatch loadId loadTime e newId now c = mounted newId now.
Proof.
  intros loadId loadTime c e newId now Hr Hav He.
  destruct (available_idle _ _ _ _ Hr Hav) as [Hl Hi].
  destruct c as [s fl]. simpl in *. subst fl.
  destruct He as [-> | ->]; simpl; unfold mounted, initialState;
    rewrite handleStartNewConversation_after, Hl; reflexivity.
Qed.

Lemma X4_reset_restarts_witness :
  let r := Responded 200 (Json {| response := lit "Done.";
                                  conversation_id := Some (lit "abc");
                                  confirmed := Some true;
                                  awaiting_confirmation := None |}) in
  let c1 := dispatch (lit "g") 0%Z (ChangeInput (lit "hi")) (lit "x") 1%Z
              (mounted (lit "g") 0%Z) in
  let c2 := dispatch (lit "g") 0%Z ClickSend (lit "u") 2%Z c1 in
  let c3 := {| view := after (settle PendingSend r (lit "v") 3%Z) (view c2);
               inflight := [] ++ [] |} in
  mode (view c3) = Confirmed
  /\ dispatch (lit "g") 0%Z ClickStartNewConversation (lit "w") 4%Z c3
     = mounted (lit "w") 4%Z.
Proof.
  intros r c1 c2 c3. split; [reflexivity|].
  apply (X4_reset_restarts (lit "g") 0%Z c3); [|reflexivity|by left].
  unfold reachable.
  apply rtc_l with c1; [apply step_user; reflexivity|].
  apply rtc_l with c2; [apply step_user; reflexivity|].
  apply rtc_once.
  exact (step_settle (lit "g") 0%Z c2 [] PendingSend [] r (lit "v") 3%Z eq_refl).
Defined.

(** ** The greeting *)

(** X5. In every state the running component reaches the message list
    is not empty and starts with the assistant's greeting. *)
Theorem X5_greeting_first :
  forall loadId loadTime (c : Component),
    reachable loadId loadTime c ->
    exists m rest,
      messages (view c) = m :: rest
      /\ Message.role m = assistant
      /\ Message.content m = GREETING
      /\ Message.suggestedQueries m = None.
Proof.
  intros loadId loadTime. unfold reachable. apply rtc_ind_r.
  - by exists (INITIAL_MESSAGE loadId loadTime), [].
  - intros c1 c2 _ Hstep (m & rest & E & Hm).
    destruct (step_messages _ _ _ _ Hstep) as [[k Hk]|(newId & now & Hv)].
    + exists m, (rest ++ k). rewrite Hk, E. done.
    + exists (assistantMessage newId GREETING now), [].
      rewrite Hv, handleStartNewConversation_after. done.
Qed.

Lemma X5_greeting_first_witness :
  let c1 := dispatch (lit "g") 0%Z (ChangeInput (lit "hi")) (lit "x") 1%Z
              (mounted (lit "g") 0%Z) in
  let c2 := dispatch (lit "g") 0%Z ClickSend (lit "u") 2%Z c1 in
  exists m rest,
    messages (view c2) = m :: rest
    /\ Message.role m = assistant
    /\ Message.content m = GREETING
    /\ Message.suggestedQueries m = None.
Proof.
  intros c1 c2. apply (X5_greeting_first (lit "g") 0%Z c2).
  unfold reachable.
  apply rtc_l with c1; [apply step_user; reflexivity|].
  apply rtc_once. apply step_user. reflexivity.
Defined.

(** ** The input box *)

(** X13. In every state the running component reaches, the input text
    is empty whenever the footer is not the composing one or a call is
    in flight: what the user typed is taken when it is sent, and nothing
    can be typed until the input box is back. *)
Theorem X13_input_empty_outside_composing :
  forall loadId loadTime (c : Component),
    reachable loadId loadTime c ->
    mode (view c) <> Composing \/ isLoading (view c) = true ->
    input (view c) = [].
Proof.
  intros loadId loadTime c Hr.
  enough (consistent c /\
          (mode (view c) <> Composing \/ isLoading (view c) = true ->
           input (view c) = [])) by tauto.
  revert c Hr. unfold reachable. apply rtc_ind_r.
  - split; [apply consistent_mounted|]. unfold mode. simpl.
    intros [H|H]; done.
  - intros c1 c2 _ Hstep [Hc IH].
    split; [exact (consistent_step _ _ _ _ Hstep Hc)|].
    destruct Hstep as [c e newId now Hav|c l1 k l2 r newId now Hfl].
    + destruct c as [[ms inp ld cid conf aw] fl].
      unfold consistent, available, mode in *. simpl in *.
      destruct fl as [|k0 [|k1 fl]]; [| |done].
      * destruct Hc as [-> Hflags].
        destruct conf, aw; try discriminate Hflags;
          destruct e; try discriminate Hav; simpl in *; run;
          try done; try (intros _; apply IH; by left).
        -- intros [H|H]; done.
        -- destruct (bool_decide (key = lit "Enter") && negb shiftKey); run;
             [|intros [H|H]; done].
           destruct (truthy_string (trim inp)); run; [done|].
           intros [H|H]; done.
        -- destruct (truthy_string (trim inp)); run; [done|].
           intros [H|H]; done.
      * destruct Hc as [-> ->].
        destruct aw; destruct e; simpl in Hav; rewrite ?orb_true_r in Hav;
          discriminate Hav.
    + unfold consistent in Hc. rewrite Hfl in Hc.
      destruct l1 as [|k1 [|k2 l1]], l2 as [|k3 l2]; simpl in Hc; try done.
      destruct Hc as [Hl _]. intros _.
      assert (Hin : input (view c) = []) by (apply IH; by right).
      simpl. destruct k; run; destruct (awaitJson r) as [data|]; run;
        try done.
      -- destruct (truthy_id (conversation_id data)),
           (truthy_flag (confirmed data)),
           (truthy_flag (awaiting_confirmation data)); done.
      -- destruct (truthy_flag (confirmed data)); done.
Qed.

Lemma X13_input_empty_outside_composing_witness :
  let c1 := dispatch (lit "g") 0%Z (ChangeInput (lit "hi")) (lit "x") 1%Z
              (mounted (lit "g") 0%Z) in
  let c2 := dispatch (lit "g") 0%Z ClickSend (lit "u") 2%Z c1 in
  input (view c1) = lit "hi" /\ input (view c2) = [].
Proof.
  intros c1 c2. split; [reflexivity|].
  apply (X13_input_empty_outside_composing (lit "g") 0%Z c2); [|by right].
  unfold reachable.
  apply rtc_l with c1; [apply step_user; reflexivity|].
  apply rtc_once. apply step_user. reflexivity.
Defined.

(** ** What [submit] shows and sends *)

(** X6. An accepted [submit] makes exactly one gateway call, whatever
    its outcome; the text it sends is the text of the user message it
    appends, namely the input with the white space at both ends cut off
    and nothing else: it neither starts nor ends with white space. *)
Theorem X6_submit_sends_what_it_shows :
  forall (s : State) id1 t1 r id2 t2,
    trim (input s) <> [] ->
    isLoading s = false ->
    let h := handleSendMessage id1 t1 r id2 t2 in
    requests (effects h s)
      = [ {| Request.message := trim (input s);
             Request.conversation_id := conversationId s |} ]
    /\ Message.content <$> messages (after h s) !! length (messages s)
       = Some (trim (input s))
    /\ (exists pre post,
          input s = pre ++ trim (input s) ++ post
          /\ forallb isWhiteSpace pre = true
          /\ forallb isWhiteSpace post = true)
    /\ (forall c, head (trim (input s)) = Some c -> isWhiteSpace c = false)
    /\ (forall c, last (trim (input s)) = Some c -> isWhiteSpace c = false).
Proof.
  intros s id1 t1 r id2 t2 Ht Hl h. subst h.
  pose proof (trim_truthy _ Ht) as Ht'.
  split; [by apply handleSendMessage_requests|].
  split; [|split; [apply trim_split|split; [apply trim_head|apply trim_last]]].
  destruct (awaitJson r) as [data|] eqn:Hr.
  - rewrite (handleSendMessage_replied _ _ _ _ _ _ data) by done.
    simpl. rewrite lookup_app_r by lia. rewrite Nat.sub_diag. reflexivity.
  - rewrite handleSendMessage_failed by done.
    simpl. rewrite lookup_app_r by lia. rewrite Nat.sub_diag. reflexivity.
Qed.

Lemma X6_submit_sends_what_it_shows_witness :
  let s := {| messages := []; input := lit "  fall 2024 "; isLoading := false;
              conversationId := Some (lit "abc"); isConfirmed := false;
              isAwaitingConfirmation := false |} in
  let h := handleSendMessage (lit "a") 1%Z Rejected (lit "b") 2%Z in
  trim (input s) = lit "fall 2024"
  /\ requests (effects h s)
     = [ {| Request.message := trim (input s);
            Request.conversation_id := conversationId s |} ].
Proof.
  intros s. split; [reflexivity|].
  refine (proj1 (X6_submit_sends_what_it_shows s (lit "a") 1%Z Rejected
                   (lit "b") 2%Z _ eq_refl)).
  vm_compute. discriminate.
Defined.

(** X12. Every accepted [submit] is answered: whatever the outcome of
    the gateway call, the list grows by exactly two messages, the user's
    and then one from the assistant.  An accepted confirmation grows it by
    two on a reply and by the user's message alone on a failure. *)
Theorem X12_turn_sizes :
  forall (s : State) choice id1 t1 r id2 t2,
    isLoading s = false ->
    (trim (input s) <> [] ->
     let s' := after (handleSendMessage id1 t1 r id2 t2) s in
     length (messages s') = (length (messages s) + 2)%nat
     /\ Message.role <$> messages s' !! length (messages s) = Some user
     /\ Message.role <$> last (messages s') = Some assistant)
    /\ (let s' := after (handleConfirmationResponse choice id1 t1 r id2 t2) s in
        length (messages s')
        = (length (messages s)
           + match awaitJson r with Some _ => 2 | None => 1 end)%nat
        /\ Message.role <$> messages s' !! length (messages s) = Some user).
Proof.
  intros s choice id1 t1 r id2 t2 Hl. split.
  - intros Ht s'. subst s'. pose proof (trim_truthy _ Ht) as Ht'.
    destruct (awaitJson r) as [data|] eqn:Hr.
    + rewrite (handleSendMessage_replied _ _ _ _ _ _ data) by done. simpl.
      rewrite length_app, lookup_app_r, Nat.sub_diag by lia.
      rewrite last_app. done.
    + rewrite handleSendMessage_failed by done. simpl.
      rewrite length_app, lookup_app_r, Nat.sub_diag by lia.
      rewrite last_app. done.
  - intros s'. subst s'. destruct (awaitJson r) as [data|] eqn:Hr.
    + rewrite (handleConfirmationResponse_replied _ _ _ _ _ _ _ data) by done.
      simpl. rewrite length_app, lookup_app_r, Nat.sub_diag by lia. done.
    + rewrite handleConfirmationResponse_failed by done. simpl.
      rewrite length_app, lookup_app_r, Nat.sub_diag by lia. done.
Qed.

Lemma X12_turn_sizes_witness :
  let s := {| messages := []; input := lit "hi"; isLoading := false;
              conversationId := None; isConfirmed := false;
              isAwaitingConfirmation := true |} in
  let s' := after (handleConfirmationResponse yes (lit "a") 1%Z Rejected
                     (lit "b") 2%Z) s in
  length (messages s') = (length (messages s) + 1)%nat
  /\ Message.role <$> messages s' !! length (messages s) = Some user.
Proof.
  intros s.
  exact (proj2 (X12_turn_sizes s yes (lit "a") 1%Z Rejected (lit "b") 2%Z
                  eq_refl)).
Defined.

(** X11. Running [handleSendMessage] again right after a run, without
    typing anything in between, does nothing: either the first run was
    turned away and the second is turned away for the same reason, or the
    first run emptied the input. *)
Theorem X11_submit_again_is_noop :
  forall (s : State) id1 t1 r id2 t2 id3 t3 r' id4 t4,
    let s1 := after (handleSendMessage id1 t1 r id2 t2) s in
    handleSendMessage id3 t3 r' id4 t4 s1 = (tt, s1, []).
Proof.
  intros s id1 t1 r id2 t2 id3 t3 r' id4 t4 s1. subst s1.
  apply handleSendMessage_returns.
  destruct (negb (truthy_string (trim (input s))) || isLoading s) eqn:E.
  - unfold after. rewrite handleSendMessage_returns by exact E. exact E.
  - apply orb_false_elim in E as [Ht Hl]. apply negb_false_iff in Ht.
    destruct (awaitJson r) as [data|] eqn:Hr.
    + rewrite (handleSendMessage_replied _ _ _ _ _ _ data) by done.
      reflexivity.
    + rewrite handleSendMessage_failed by done. reflexivity.
Qed.

(** ** The conversation identifier from one call to the next *)

(** The effects of a handler that runs after the input was set. *)
Lemma effects_after_setInput {A} text (h : Handler A) s :
  effects (setInput text;; h) s = effects h (after (setInput text) s).
Proof. rewrite effects_bind. reflexivity. Qed.

(** X7. The identifier a reply to [submit] brings is the one the next
    call carries, be it a [submit] or a confirmation; a reply that brings
    none, or an empty one, leaves the next call with the identifier the
    component had before. *)
Theorem X7_conversation_id_carried :
  forall (s : State) id1 t1 r id2 t2 data,
    trim (input s) <> [] ->
    isLoading s = false ->
    awaitJson r = Some data ->
    let s1 := after (handleSendMessage id1 t1 r id2 t2) s in
    let next text choice id3 t3 r' id4 t4 carried :=
      requests (effects (setInput text;;
                         handleSendMessage id3 t3 r' id4 t4) s1)
        = [ {| Request.message := trim text;
               Request.conversation_id := carried |} ]
      /\ requests (effects (handleConfirmationResponse choice id3 t3 r' id4 t4) s1)
         = [ {| Request.message := sent choice;
                Request.conversation_id := carried |} ] in
    (forall cid, conversation_id data = Some cid -> cid <> [] ->
       forall text choice id3 t3 r' id4 t4, trim text <> [] ->
         next text choice id3 t3 r' id4 t4 (Some cid))
    /\ (conversation_id data = None \/ conversation_id data = Some [] ->
        forall text choice id3 t3 r' id4 t4, trim text <> [] ->
          next text choice id3 t3 r' id4 t4 (conversationId s)).
Proof.
  intros s id1 t1 r id2 t2 data Ht Hl Hr s1 next.
  assert (E : forall carried,
             (if truthy_id (conversation_id data)
              then conversation_id data else conversationId s) = carried ->
             forall text choice id3 t3 r' id4 t4, trim text <> [] ->
               next text choice id3 t3 r' id4 t4 carried).
  { intros carried Hc text choice id3 t3 r' id4 t4 Htext. subst next s1.
    rewrite (handleSendMessage_replied _ _ _ _ _ _ data);
      [|by apply trim_truthy|exact Hl|exact Hr].
    rewrite Hc. split.
    - rewrite effects_after_setInput.
      rewrite handleSendMessage_requests; [reflexivity| |reflexivity].
      by apply trim_truthy.
    - by rewrite handleConfirmationResponse_requests. }
  split.
  - intros cid Hcid Hne. apply E. rewrite Hcid. destruct cid; done.
  - intros H. apply E. destruct H as [-> | ->]; reflexivity.
Qed.

Lemma X7_conversation_id_carried_witness :
  let s := {| messages := []; input := lit "fall 2024"; isLoading := false;
              conversationId := None; isConfirmed := false;
              isAwaitingConfirmation := false |} in
  let data := {| response := lit "Search?"; conversation_id := Some (lit "abc");
                 confirmed := None; awaiting_confirmation := Some true |} in
  let s1 := after (handleSendMessage (lit "a") 1%Z (Responded 200 (Json data))
                     (lit "b") 2%Z) s in
  requests (effects (handleConfirmationResponse yes (lit "c") 3%Z Rejected
                       (lit "d") 4%Z) s1)
  = [ {| Request.message := lit "yes";
         Request.conversation_id := Some (lit "abc") |} ].
Proof.
  intros s data.
  assert (Ht : trim (input s) <> []) by (vm_compute; discriminate).
  assert (Hx : trim (lit "x") <> []) by (vm_compute; discriminate).
  assert (Hc : lit "abc" <> []) by (vm_compute; discriminate).
  exact (proj2 (proj1 (X7_conversation_id_carried s (lit "a") 1%Z
                         (Responded 200 (Json data)) (lit "b") 2%Z data
                         Ht eq_refl eq_refl)
                  (lit "abc") eq_refl Hc
                  (lit "x") yes (lit "c") 3%Z Rejected (lit "d") 4%Z Hx)).
Defined.

(** X8. After a reset the next [submit] goes out with a null
    conversation identifier, whatever identifier the component held. *)
Theorem X8_reset_forgets_conversation :
  forall loadId loadTime (s : State) newId now text id1 t1 r id2 t2,
    trim text <> [] ->
    isLoading s = false ->
    requests
      (effects (setInput text;; handleSendMessage id1 t1 r id2 t2)
         (after (handleStartNewConversation loadId loadTime newId now) s))
    = [ {| Request.message := trim text; Request.conversation_id := None |} ].
Proof.
  intros loadId loadTime s newId now text id1 t1 r id2 t2 Ht Hl.
  rewrite effects_after_setInput, handleStartNewConversation_after.
  rewrite handleSendMessage_requests; [reflexivity| |exact Hl].
  by apply trim_truthy.
Qed.

Lemma X8_reset_forgets_conversation_witness :
  let s := {| messages := []; input := []; isLoading := false;
              conversationId := Some (lit "abc"); isConfirmed := true;
              isAwaitingConfirmation := false |} in
  requests
    (effects (setInput (lit "spring 2025");;
              handleSendMessage (lit "a") 1%Z Rejected (lit "b") 2%Z)
       (after (handleStartNewConversation (lit "g") 0%Z (lit "n") 5%Z) s))
  = [ {| Request.message := trim (lit "spring 2025");
         Request.conversation_id := None |} ].
Proof.
  intros s.
  apply (X8_reset_forgets_conversation (lit "g") 0%Z s); [|reflexivity].
  vm_compute. discriminate.
Defined.

(** ** After a confirmation *)

(** X9. After a reply to an accepted confirmation the mode follows the
    reply's flags: confirmed when [confirmed] is set; otherwise, from a
    mode that was not confirmed, awaiting confirmation when
    [awaiting_confirmation] is set and composing when neither is.  The
    conversation identifier and the input are what they were. *)
Theorem X9_mode_after_confirmation :
  forall (s : State) choice id1 t1 r id2 t2 data,
    isLoading s = false ->
    awaitJson r = Some data ->
    let s' := after (handleConfirmationResponse choice id1 t1 r id2 t2) s in
    (truthy_flag (confirmed data) = true -> mode s' = Confirmed)
    /\ (truthy_flag (confirmed data) = false ->
        truthy_flag (awaiting_confirmation data) = true ->
        mode s <> Confirmed -> mode s' = AwaitingConfirmation)
    /\ (truthy_flag (confirmed data) = false ->
        truthy_flag (awaiting_confirmation data) = false ->
        mode s <> Confirmed -> mode s' = Composing)
    /\ conversationId s' = conversationId s
    /\ input s' = input s
    /\ isLoading s' = false.
Proof.
  intros s choice id1 t1 r id2 t2 data Hl Hr s'. subst s'.
  rewrite (handleConfirmationResponse_replied _ _ _ _ _ _ _ data) by done.
  unfold mode. simpl.
  destruct (truthy_flag (confirmed data)),
    (truthy_flag (awaiting_confirmation data)),
    (isConfirmed s), (isAwaitingConfirmation s); simpl;
    repeat split; intros; congruence.
Qed.

Lemma X9_mode_after_confirmation_witness :
  let s := {| messages := []; input := []; isLoading := false;
              conversationId := Some (lit "abc"); isConfirmed := false;
              isAwaitingConfirmation := true |} in
  let data := {| response := lit "What would you like to change?";
                 conversation_id := None; confirmed := None;
                 awaiting_confirmation := None |} in
  mode (after (handleConfirmationResponse no (lit "a") 1%Z
                 (Responded 200 (Json data)) (lit "b") 2%Z) s) = Composing.
Proof.
  intros s data.
  refine (proj1 (proj2 (proj2 (X9_mode_after_confirmation s no (lit "a") 1%Z
                                 (Responded 200 (Json data)) (lit "b") 2%Z data
                                 eq_refl eq_refl))) eq_refl eq_refl _).
  vm_compute. discriminate.
Defined.

(** X10. A confirmation whose gateway call fails can be tried again:
    the footer offers afterwards exactly the controls it offered before,
    and the same choice sends the same request; only the user message
    stays in the list. *)
Theorem X10_failed_confirmation_can_be_retried :
  forall (s : State) choice id1 t1 r id2 t2,
    isLoading s = false ->
    awaitJson r = None ->
    let h := handleConfirmationResponse choice id1 t1 r id2 t2 in
    (forall e, available (after h s) e = available s e)
    /\ (forall id3 t3 r' id4 t4,
          requests (effects (handleConfirmationResponse choice id3 t3 r' id4 t4)
                      (after h s))
          = requests (effects h s))
    /\ messages (after h s) = messages s ++ [userMessage id1 (shown choice) t1].
Proof.
  intros s choice id1 t1 r id2 t2 Hl Hr h. subst h.
  rewrite handleConfirmationResponse_failed by done.
  split; [|split; [|reflexivity]].
  - intros e. unfold available, mode. simpl. rewrite Hl. reflexivity.
  - intros. rewrite !handleConfirmationResponse_requests by done. reflexivity.
Qed.

Lemma X10_failed_confirmation_can_be_retried_witness :
  let s := {| messages := []; input := []; isLoading := false;
              conversationId := Some (lit "abc"); isConfirmed := false;
              isAwaitingConfirmation := true |} in
  let h := handleConfirmationResponse yes (lit "a") 1%Z
             (Responded 502 InvalidJson) (lit "b") 2%Z in
  available (after h s) ClickYes = true
  /\ messages (after h s) = messages s ++ [userMessage (lit "a") (shown yes) 1%Z].
Proof.
  intros s h. split; [reflexivity|].
  exact (proj2 (proj2 (X10_failed_confirmation_can_be_retried s yes (lit "a") 1%Z
                         (Responded 502 InvalidJson) (lit "b") 2%Z
                         eq_refl eq_refl))).
Defined.

(** ** A turn of the running component is one run of its handler *)

Lemma view_launch h k c : view (launch h k c) = after h (view c).
Proof. unfold launch, after. destruct (h (view c)) as [[started s] es]. done. Qed.

Lemma inflight_launch h k c :
  inflight (launch h k c)
  = if fst (fst (h (view c))) then inflight c ++ [k] else inflight c.
Proof. unfold launch. destruct (h (view c)) as [[started s] es]. done. Qed.

(** X14. In the running component a click on the send button, or on
    one of the two confirmation buttons, starts exactly one gateway call,
    and once that call settles the view is the one a whole run of
    [handleSendMessage], respectively [handleConfirmationResponse],
    leaves from the view before the click. *)
Theorem X14_turn_is_one_run :
  forall loadId loadTime (c : Component) e id1 t1 r id2 t2,
    reachable loadId loadTime c ->
    available (view c) e = true ->
    let c1 := dispatch loadId loadTime e id1 t1 c in
    (e = ClickSend ->
     inflight c1 = [PendingSend]
     /\ after (settle PendingSend r id2 t2) (view c1)
        = after (handleSendMessage id1 t1 r id2 t2) (view c))
    /\ (forall choice,
          e = match choice with yes => ClickYes | no => ClickChange end ->
          inflight c1 = [PendingConfirmation]
          /\ after (settle PendingConfirmation r id2 t2) (view c1)
             = after (handleConfirmationResponse choice id1 t1 r id2 t2)
                     (view c)).
Proof.
  intros loadId loadTime c e id1 t1 r id2 t2 Hr Hav c1. subst c1.
  destruct (available_idle _ _ _ _ Hr Hav) as [Hl Hi].
  split.
  - intros ->. pose proof (send_enabled_accepted _ id1 t1 Hav) as Hst.
    simpl. rewrite inflight_launch, view_launch, Hst, Hi.
    split; [reflexivity|].
    unfold handleSendMessage. rewrite after_bind, Hst. reflexivity.
  - intros choice ->.
    assert (Hst : fst (fst (handleConfirmationResponse_begin choice id1 t1 (view c)))
                  = true).
    { run. rewrite Hl. reflexivity. }
    assert (Hd : dispatch loadId loadTime
                   match choice with yes => ClickYes | no => ClickChange end
                   id1 t1 c
                 = launch (handleConfirmationResponse_begin choice id1 t1)
                          PendingConfirmation c)
      by (destruct choice; reflexivity).
    rewrite Hd, inflight_launch, view_launch, Hst, Hi.
    split; [reflexivity|].
    unfold handleConfirmationResponse. rewrite after_bind, Hst. reflexivity.
Qed.

Lemma X14_turn_is_one_run_witness :
  let c := dispatch (lit "g") 0%Z (ChangeInput (lit "hi")) (lit "x") 1%Z
             (mounted (lit "g") 0%Z) in
  let c1 := dispatch (lit "g") 0%Z ClickSend (lit "u") 2%Z c in
  inflight c1 = [PendingSend]
  /\ after (settle PendingSend Rejected (lit "v") 3%Z) (view c1)
     = after (handleSendMessage (lit "u") 2%Z Rejected (lit "v") 3%Z) (view c).
Proof.
  intros c.
  refine (proj1 (X14_turn_is_one_run (lit "g") 0%Z c ClickSend (lit "u") 2%Z
                   Rejected (lit "v") 3%Z _ eq_refl) eq_refl).
  unfold reachable. apply rtc_once. apply step_user. reflexivity.
Defined.
